(** * The YouTube embed widget of [app.py]

    The repository is one Streamlit script: it writes a subheader and a
    text input bound to the session key [linkid], and, when the text is
    not empty, an HTML component holding an iframe on the YouTube embed
    URL of that text.

    Python [str] values are modelled as [string], read as the UTF-8
    bytes of the text: concatenation and emptiness agree with the ones of
    code points, and the byte 34 occurs only as the double quote. *)

From Stdlib Require Import String Ascii List Bool ZArith Lia.
From stdpp Require Import gmap strings.
Import ListNotations.

Local Open Scope string_scope.
Local Open Scope list_scope.
Local Open Scope Z_scope.

(** ** Python strings *)

Module Py.

(** The two characters of the script's literals that a Rocq literal
    does not spell directly. *)
Definition dq : string := String "034"%char "".
Definition nl : string := String "010"%char "".

(** Truth value of a [str]: [if video_id:] holds when the length is
    not zero. *)
Definition truthy (s : string) : bool :=
  match s with
  | EmptyString => false
  | String _ _ => true
  end.

(** An f-string is a sequence of literal pieces and replacement
    fields.  A field whose value is a [str], with no conversion and no
    format spec, contributes the value itself. *)
Inductive fpart : Type :=
| Lit (text : string)
| Field (value : string).

Definition fpart_text (p : fpart) : string :=
  match p with
  | Lit text => text
  | Field value => value
  end.

Fixpoint fstring (ps : list fpart) : string :=
  match ps with
  | [] => ""
  | p :: ps' => fpart_text p +:+ fstring ps'
  end.

Fixpoint all_chars (p : ascii -> bool) (s : string) : bool :=
  match s with
  | EmptyString => true
  | String c s' => p c && all_chars p s'
  end.

(** White space for Python is a character of Unicode category Zs or
    of bidirectional class WS, B or S.  On the UTF-8 bytes these are
    the one-byte characters U+0009 to U+000D, U+001C to U+001F and
    U+0020, the two-byte characters U+0085 and U+00A0, and the
    three-byte characters U+1680, U+2000 to U+200A, U+2028, U+2029,
    U+202F, U+205F and U+3000. *)
Definition space1 (a : ascii) : bool :=
  let n := nat_of_ascii a in
  ((9 <=? n)%nat && (n <=? 13)%nat)
  || ((28 <=? n)%nat && (n <=? 32)%nat).

Definition space2 (a b : ascii) : bool :=
  (a =? "194")%char && ((b =? "133")%char || (b =? "160")%char).

Definition space3 (a b c : ascii) : bool :=
  let n := nat_of_ascii c in
  ((a =? "225")%char && (b =? "154")%char && (c =? "128")%char)
  || ((a =? "226")%char && (b =? "128")%char
      && (((128 <=? n)%nat && (n <=? 138)%nat)
          || (c =? "168")%char || (c =? "169")%char || (c =? "175")%char))
  || ((a =? "226")%char && (b =? "129")%char && (c =? "159")%char)
  || ((a =? "227")%char && (b =? "128")%char && (c =? "128")%char).

Fixpoint all_space (s : string) : bool :=
  match s with
  | EmptyString => true
  | String a s1 =>
      if space1 a then all_space s1
      else
        match s1 with
        | EmptyString => false
        | String b s2 =>
            if space2 a b then all_space s2
            else
              match s2 with
              | EmptyString => false
              | String c s3 => space3 a b c && all_space s3
              end
        end
  end.

(** [s.isspace()]: the string is not empty and all its characters are
    white space; these are the characters [s.strip()] removes. *)
Definition isspace (s : string) : bool := truthy s && all_space s.

End Py.

(** ** The part of Streamlit the script calls *)

Module Streamlit.

(** What a call writes to the page.  A text input is written as the
    control itself (label and session key); the text it holds lives in
    the session state under its key. *)
Inductive element : Type :=
| Subheader (body : string)
| TextInput (label key : string)
| HtmlComponent (html : string) (height : Z).

Record page : Type := mkPage {
  session_state : gmap string string;
  display : list element
}.

(** A script is a state transformer on the page. *)
Definition St (A : Type) : Type := page -> A * page.

Definition ret {A} (a : A) : St A := fun p => (a, p).

Definition bind {A B} (m : St A) (k : A -> St B) : St B :=
  fun p => let '(a, p') := m p in k a p'.

Definition write (e : element) : St unit :=
  fun p => (tt, mkPage (session_state p) (display p ++ [e])).

(** [st.subheader(body)] *)
Definition subheader (body : string) : St unit :=
  write (Subheader body).

(** [st.text_input(label, key=key)]: returns the text held under
    [key], which is the default [""] for a key not yet in the session
    state; the widget registers its value under the key.  This is the
    call on a page that holds no widget of that key yet, as in a cycle
    of the script, which makes the call once on a fresh page; a second
    widget of the same key on one page is an error in Streamlit and is
    not modelled. *)
Definition text_input (label key : string) : St string :=
  fun p =>
    let v := default "" (session_state p !! key) in
    (v, mkPage (<[key := v]> (session_state p))
               (display p ++ [TextInput label key])).

(** [components.html(html, height=height)] *)
Definition components_html (html : string) (height : Z) : St unit :=
  write (HtmlComponent html height).

End Streamlit.

Notation "x <- m ;; k" := (Streamlit.bind m (fun x => k))
  (at level 100, m at next level, right associativity).
Notation "m ;;; k" := (Streamlit.bind m (fun _ => k))
  (at level 100, right associativity).

(** ** The script *)

Module App.
Import Py Streamlit.

(** The names the script binds at module level once it has run:
    [embed_url] is bound only inside the [if]. *)
Record namespace : Type := mkNamespace {
  video_id : string;
  embed_url : option string
}.

(** The four bytes of U+1F3A5 that open the subheader text. *)
Definition camera : string :=
  String "240"%char (String "159"%char (String "142"%char
    (String "165"%char ""))).

(** The literal text of the triple-quoted f-string before and after
    its one replacement field [{embed_url}]. *)
Definition html_head : string :=
  nl +:+ "        <iframe width=" +:+ dq +:+ "700" +:+ dq
     +:+ " height=" +:+ dq +:+ "400" +:+ dq +:+ nl
     +:+ "        src=" +:+ dq.

Definition html_tail : string :=
  dq +:+ nl
     +:+ "        frameborder=" +:+ dq +:+ "0" +:+ dq +:+ nl
     +:+ "        allowfullscreen>" +:+ nl
     +:+ "        </iframe>" +:+ nl
     +:+ "    ".

Definition app : St namespace :=
  subheader (camera +:+ " Enter YouTube Video ID:") ;;;
  video_id <- text_input "Video Link ID" "linkid" ;;
  if truthy video_id then
    let embed_url :=
      fstring [Lit "https://www.youtube.com/embed/"; Field video_id;
               Lit "?rel=0"] in
    components_html
      (fstring [Lit html_head; Field embed_url; Lit html_tail]) 400 ;;;
    ret (mkNamespace video_id (Some embed_url))
  else
    ret (mkNamespace video_id None).

(** One render cycle: the script runs from the top on an empty page
    that carries the session state over. *)
Definition render (session : gmap string string)
  : namespace * page :=
  app (mkPage session []).

End App.

(** ** Reading the emitted markup

    The properties of the renderer speak of the iframe and of its
    attributes, so the markup the script hands to [components.html] has
    to be read the way a browser delimits it.  [Html] follows the HTML
    tokenizer: the newlines of the input are normalised first (CR LF
    and CR become LF), then the text goes through the data state, the
    tag and attribute states, and the raw-text states entered after the
    start tag of an element such as [iframe].  Names are folded to lower
    case, and a NUL inside a tag or raw text is read as U+FFFD.

    What the model does not read, it does not guess: at [&] in data or
    in an attribute value, where a character reference may start, at a
    comment or declaration, and after the start tag of an element whose
    content has states of its own, the reading stops with the token
    [Unmodelled].  The tokens before it are the ones of the full
    reading. *)

Module Html.

Definition attribute : Type := string * string.

(** The tag being read: its completed attributes, in order, and the
    attribute under construction. *)
Record tag : Type := mkTag {
  tag_end : bool;
  tag_name : string;
  tag_attrs : list attribute;
  tag_cur : option attribute;
  tag_self_closing : bool
}.

Inductive token : Type :=
| Character (c : ascii)
| StartTag (name : string) (attrs : list attribute) (self_closing : bool)
| EndTag (name : string)
| Unmodelled
| EOF.

Inductive in_tag : Type :=
| TagName
| BeforeAttrName
| AttrName
| AfterAttrName
| BeforeAttrValue
| AttrValueDQ
| AttrValueSQ
| AttrValueUnq
| AfterAttrValueQ
| SelfClosingStartTag.

Inductive state : Type :=
| Data
| TagOpen
| EndTagOpen
| InTag (m : in_tag) (t : tag)
| RawText (last : string)
| RawTextLT (last : string)
| RawTextEndTagOpen (last : string)
| RawTextEndTagName (last : string) (t : tag) (buf : string)
| Halted.

(** *** The input stream *)

(** Newlines are normalised before the tokenizer sees the text: a CR
    followed by LF is dropped, any other CR becomes LF. *)
Fixpoint normalize_newlines (s : string) : string :=
  match s with
  | EmptyString => EmptyString
  | String c s' =>
      if (c =? "013")%char then
        match s' with
        | String "010"%char _ => normalize_newlines s'
        | _ => String "010"%char (normalize_newlines s')
        end
      else String c (normalize_newlines s')
  end.

(** *** Character classes *)

Definition is_ws (c : ascii) : bool :=
  let n := nat_of_ascii c in
  (n =? 9)%nat || (n =? 10)%nat || (n =? 12)%nat || (n =? 32)%nat.

Definition is_upper (c : ascii) : bool :=
  let n := nat_of_ascii c in (65 <=? n)%nat && (n <=? 90)%nat.

Definition is_lower (c : ascii) : bool :=
  let n := nat_of_ascii c in (97 <=? n)%nat && (n <=? 122)%nat.

Definition is_alpha (c : ascii) : bool := is_upper c || is_lower c.

Definition lower (c : ascii) : ascii :=
  if is_upper c then ascii_of_nat (nat_of_ascii c + 32) else c.

Definition push (s : string) (c : ascii) : string := s +:+ String c "".

(** The three bytes of U+FFFD, and the text one character adds to a
    name or to a value. *)
Definition replacement : string :=
  String "239"%char (String "191"%char (String "189"%char "")).

Definition name_text (c : ascii) : string :=
  if (c =? "000")%char then replacement else String (lower c) "".

Definition value_text (c : ascii) : string :=
  if (c =? "000")%char then replacement else String c "".

(** *** Attributes of the tag being read *)

Definition has_attr (n : string) (l : list attribute) : bool :=
  existsb (fun a => String.eqb (fst a) n) l.

(** The attribute under construction is kept unless the tag already
    has one of that name. *)
Definition commit (t : tag) : tag :=
  match tag_cur t with
  | None => t
  | Some (n, v) =>
      mkTag (tag_end t) (tag_name t)
            (if has_attr n (tag_attrs t) then tag_attrs t
             else tag_attrs t ++ [(n, v)])
            None (tag_self_closing t)
  end.

Definition start_attr (n : string) (t : tag) : tag :=
  let t' := commit t in
  mkTag (tag_end t') (tag_name t') (tag_attrs t') (Some (n, ""))
        (tag_self_closing t').

Definition push_tag_name (c : ascii) (t : tag) : tag :=
  mkTag (tag_end t) (tag_name t +:+ name_text c) (tag_attrs t) (tag_cur t)
        (tag_self_closing t).

Definition push_attr_name (c : ascii) (t : tag) : tag :=
  mkTag (tag_end t) (tag_name t) (tag_attrs t)
        (match tag_cur t with
         | Some (n, v) => Some (n +:+ name_text c, v)
         | None => None
         end)
        (tag_self_closing t).

Definition push_attr_value (c : ascii) (t : tag) : tag :=
  mkTag (tag_end t) (tag_name t) (tag_attrs t)
        (match tag_cur t with
         | Some (n, v) => Some (n, v +:+ value_text c)
         | None => None
         end)
        (tag_self_closing t).

Definition set_self_closing (t : tag) : tag :=
  mkTag (tag_end t) (tag_name t) (tag_attrs t) (tag_cur t) true.

Definition new_tag (is_end : bool) : tag := mkTag is_end "" [] None false.

(** *** Emitting a tag *)

Definition token_of (t : tag) : token :=
  let t' := commit t in
  if tag_end t' then EndTag (tag_name t')
  else StartTag (tag_name t') (tag_attrs t') (tag_self_closing t').

(** Elements whose content is read as raw text up to their end tag,
    and elements after whose start tag the model does not read on:
    their content has states of its own ([script], [plaintext], and
    [title], [textarea], [noscript], where references are decoded or
    the reading depends on scripting), or a browser then reads start
    tags by other rules ([select], [frameset], [template], and the
    foreign content of [svg] and [math], where the start tag of a
    raw-text element does not open raw text). *)
Definition raw_text_elements : list string :=
  ["iframe"; "style"; "xmp"; "noembed"; "noframes"].

Definition unmodelled_elements : list string :=
  ["script"; "plaintext"; "title"; "textarea"; "noscript";
   "select"; "frameset"; "template"; "svg"; "math"].

Definition mem (n : string) (l : list string) : bool :=
  existsb (String.eqb n) l.

Definition halt : list token * state := ([Unmodelled], Halted).

Definition emit (t : tag) : list token * state :=
  if tag_end t then ([token_of t], Data)
  else if mem (tag_name t) raw_text_elements
    then ([token_of t], RawText (tag_name t))
  else if mem (tag_name t) unmodelled_elements
    then ([token_of t; Unmodelled], Halted)
  else ([token_of t], Data).

(** *** One character in each state

    A state that hands the character over to another state
    ("reconsume") calls that state's function. *)

Definition data_step (c : ascii) : list token * state :=
  if (c =? "&")%char then halt
  else if (c =? "<")%char then ([], TagOpen)
  else ([Character c], Data).

Definition tag_name_step (t : tag) (c : ascii) : list token * state :=
  if is_ws c then ([], InTag BeforeAttrName t)
  else if (c =? "/")%char then ([], InTag SelfClosingStartTag t)
  else if (c =? ">")%char then emit t
  else ([], InTag TagName (push_tag_name c t)).

Definition tag_open_step (c : ascii) : list token * state :=
  if (c =? "!")%char then halt
  else if (c =? "/")%char then ([], EndTagOpen)
  else if is_alpha c then tag_name_step (new_tag false) c
  else if (c =? "?")%char then halt
  else let '(out, st) := data_step c in (Character "<" :: out, st).

Definition end_tag_open_step (c : ascii) : list token * state :=
  if is_alpha c then tag_name_step (new_tag true) c
  else if (c =? ">")%char then ([], Data)
  else halt.

(** After an attribute name.  Any other character opens a new
    attribute and is handed to the attribute name state, where it is
    neither white space, [/], [>] nor [=], and so is added to the
    name. *)
Definition after_attr_name_step (t : tag) (c : ascii)
  : list token * state :=
  if is_ws c then ([], InTag AfterAttrName t)
  else if (c =? "/")%char then ([], InTag SelfClosingStartTag t)
  else if (c =? "=")%char then ([], InTag BeforeAttrValue t)
  else if (c =? ">")%char then emit t
  else ([], InTag AttrName (push_attr_name c (start_attr "" t))).

Definition attr_name_step (t : tag) (c : ascii) : list token * state :=
  if is_ws c || (c =? "/")%char || (c =? ">")%char
    then after_attr_name_step t c
  else if (c =? "=")%char then ([], InTag BeforeAttrValue t)
  else ([], InTag AttrName (push_attr_name c t)).

Definition before_attr_name_step (t : tag) (c : ascii)
  : list token * state :=
  if is_ws c then ([], InTag BeforeAttrName t)
  else if (c =? "/")%char || (c =? ">")%char
    then after_attr_name_step t c
  else if (c =? "=")%char
    then ([], InTag AttrName (start_attr (String c "") t))
  else attr_name_step (start_attr "" t) c.

Definition attr_value_unq_step (t : tag) (c : ascii)
  : list token * state :=
  if is_ws c then ([], InTag BeforeAttrName t)
  else if (c =? "&")%char then halt
  else if (c =? ">")%char then emit t
  else ([], InTag AttrValueUnq (push_attr_value c t)).

Definition before_attr_value_step (t : tag) (c : ascii)
  : list token * state :=
  if is_ws c then ([], InTag BeforeAttrValue t)
  else if (c =? "034")%char then ([], InTag AttrValueDQ t)
  else if (c =? "'")%char then ([], InTag AttrValueSQ t)
  else if (c =? ">")%char then emit t
  else attr_value_unq_step t c.

Definition attr_value_dq_step (t : tag) (c : ascii)
  : list token * state :=
  if (c =? "034")%char then ([], InTag AfterAttrValueQ t)
  else if (c =? "&")%char then halt
  else ([], InTag AttrValueDQ (push_attr_value c t)).

Definition attr_value_sq_step (t : tag) (c : ascii)
  : list token * state :=
  if (c =? "'")%char then ([], InTag AfterAttrValueQ t)
  else if (c =? "&")%char then halt
  else ([], InTag AttrValueSQ (push_attr_value c t)).

Definition after_attr_value_q_step (t : tag) (c : ascii)
  : list token * state :=
  if is_ws c then ([], InTag BeforeAttrName t)
  else if (c =? "/")%char then ([], InTag SelfClosingStartTag t)
  else if (c =? ">")%char then emit t
  else before_attr_name_step t c.

Definition self_closing_step (t : tag) (c : ascii)
  : list token * state :=
  if (c =? ">")%char then emit (set_self_closing t)
  else before_attr_name_step t c.

Definition in_tag_step (m : in_tag) (t : tag) (c : ascii)
  : list token * state :=
  match m with
  | TagName => tag_name_step t c
  | BeforeAttrName => before_attr_name_step t c
  | AttrName => attr_name_step t c
  | AfterAttrName => after_attr_name_step t c
  | BeforeAttrValue => before_attr_value_step t c
  | AttrValueDQ => attr_value_dq_step t c
  | AttrValueSQ => attr_value_sq_step t c
  | AttrValueUnq => attr_value_unq_step t c
  | AfterAttrValueQ => after_attr_value_q_step t c
  | SelfClosingStartTag => self_closing_step t c
  end.

(** *** Raw text: only the end tag of the open element is a tag *)

Definition characters (s : string) : list token :=
  map Character (list_ascii_of_string s).

Definition raw_text_step (last : string) (c : ascii)
  : list token * state :=
  if (c =? "<")%char then ([], RawTextLT last)
  else if (c =? "000")%char then (characters replacement, RawText last)
  else ([Character c], RawText last).

Definition raw_text_lt_step (last : string) (c : ascii)
  : list token * state :=
  if (c =? "/")%char then ([], RawTextEndTagOpen last)
  else let '(out, st) := raw_text_step last c in
       (Character "<" :: out, st).

Definition raw_text_end_tag_name_step
    (last : string) (t : tag) (buf : string) (c : ascii)
  : list token * state :=
  let appropriate := String.eqb (tag_name t) last in
  if is_ws c && appropriate then ([], InTag BeforeAttrName t)
  else if (c =? "/")%char && appropriate
    then ([], InTag SelfClosingStartTag t)
  else if (c =? ">")%char && appropriate then emit t
  else if is_alpha c
    then ([], RawTextEndTagName last (push_tag_name c t) (push buf c))
  else let '(out, st) := raw_text_step last c in
       (Character "<" :: Character "/" :: characters buf ++ out, st).

Definition raw_text_end_tag_open_step (last : string) (c : ascii)
  : list token * state :=
  if is_alpha c
    then raw_text_end_tag_name_step last (new_tag true) "" c
  else let '(out, st) := raw_text_step last c in
       (Character "<" :: Character "/" :: out, st).

Definition step (st : state) (c : ascii) : list token * state :=
  match st with
  | Data => data_step c
  | TagOpen => tag_open_step c
  | EndTagOpen => end_tag_open_step c
  | InTag m t => in_tag_step m t c
  | RawText last => raw_text_step last c
  | RawTextLT last => raw_text_lt_step last c
  | RawTextEndTagOpen last => raw_text_end_tag_open_step last c
  | RawTextEndTagName last t buf =>
      raw_text_end_tag_name_step last t buf c
  | Halted => ([], Halted)
  end.

(** At the end of the input a tag still being read is dropped. *)
Definition at_eof (st : state) : list token :=
  match st with
  | Data | InTag _ _ | RawText _ => [EOF]
  | TagOpen | RawTextLT _ => [Character "<"; EOF]
  | EndTagOpen | RawTextEndTagOpen _ =>
      [Character "<"; Character "/"; EOF]
  | RawTextEndTagName _ _ buf =>
      Character "<" :: Character "/" :: characters buf ++ [EOF]
  | Halted => []
  end.

Fixpoint run (st : state) (s : string) : list token :=
  match s with
  | EmptyString => at_eof st
  | String c s' => let '(out, st') := step st c in out ++ run st' s'
  end.

Definition tokenize (s : string) : list token :=
  run Data (normalize_newlines s).

(** Reading a first part of the input: the tokens it gives and the
    state it leaves for the rest. *)
Fixpoint feed (st : state) (s : string) : list token * state :=
  match s with
  | EmptyString => ([], st)
  | String c s' =>
      let '(out, st') := step st c in
      let '(out', st'') := feed st' s' in
      (out ++ out', st'')
  end.

(** *** What is observed of a token list *)

Fixpoint start_tags (ts : list token)
  : list (string * list attribute) :=
  match ts with
  | [] => []
  | StartTag n attrs _ :: ts' => (n, attrs) :: start_tags ts'
  | _ :: ts' => start_tags ts'
  end.

(** The attribute lists of the iframe start tags of a markup text. *)
Definition iframes (html : string) : list (list attribute) :=
  map snd
    (filter (fun na => String.eqb (fst na) "iframe")
            (start_tags (tokenize html))).

(** Among attributes of one name the first counts. *)
Fixpoint get_attr (n : string) (attrs : list attribute)
  : option string :=
  match attrs with
  | [] => None
  | (n', v) :: attrs' =>
      if String.eqb n' n then Some v else get_attr n attrs'
  end.

End Html.

(** ** What a render cycle is observed through *)

Module Observe.
Import Py Streamlit App.

(** The text the input control holds when the script reads it. *)
Definition identifier (session : gmap string string) : string :=
  default "" (session !! "linkid").

(** The embed fragments on a page, each with its container height. *)
Fixpoint fragments (d : list element) : list (string * Z) :=
  match d with
  | [] => []
  | HtmlComponent html h :: d' => (html, h) :: fragments d'
  | _ :: d' => fragments d'
  end.

(** What one cycle shows, and the session state it leaves. *)
Definition shown (session : gmap string string) : list element :=
  display (snd (render session)).

Definition session_after (session : gmap string string)
  : gmap string string :=
  session_state (snd (render session)).

Definition no_dquote (s : string) : bool :=
  all_chars (fun c => negb (c =? "034")%char) s.

(** Text without carriage return, and text that an HTML reader takes
    as it stands: no ampersand, which may start a character reference,
    no carriage return and no NUL, which the reader replaces. *)
Definition no_cr (s : string) : bool :=
  all_chars (fun c => negb (c =? "013")%char) s.

Definition literal_char (c : ascii) : bool :=
  negb ((c =? "&")%char || (c =? "013")%char || (c =? "000")%char).

Definition literal (s : string) : bool := all_chars literal_char s.

(** Text that stays inside a double-quoted attribute value, as it
    stands. *)
Definition plain (s : string) : bool :=
  all_chars (fun c => negb (c =? "034")%char && literal_char c) s.

(** The markup was read to its end. *)
Definition read_whole (html : string) : Prop :=
  ~ In Html.Unmodelled (Html.tokenize html).

(** The markup, read to its end, holds one iframe and no other, and
    this iframe carries the five attributes of the player frame and no
    other. *)
Definition one_player_iframe (html url : string) : Prop :=
  exists attrs,
    Html.iframes html = [attrs]
    /\ Html.get_attr "width" attrs = Some "700"
    /\ Html.get_attr "height" attrs = Some "400"
    /\ Html.get_attr "frameborder" attrs = Some "0"
    /\ Html.get_attr "allowfullscreen" attrs = Some ""
    /\ Html.get_attr "src" attrs = Some url
    /\ length attrs = 5%nat
    /\ read_whole html.

(** The first start tag of a token list, when there is one, is an
    iframe of width 700 and height 400. *)
Definition first_tag_sized (ts : list Html.token) : Prop :=
  match Html.start_tags ts with
  | [] => True
  | (n, attrs) :: _ =>
      n = "iframe"
      /\ Html.get_attr "width" attrs = Some "700"
      /\ Html.get_attr "height" attrs = Some "400"
  end.

End Observe.

(** ** The frame of the template, attribute by attribute

    What is needed to follow the frame through any text an identifier
    can put after the opening quote of [src]. *)

Module Frame.
Import Py App Html.

(** The tag states in which the attribute read last is complete but
    not yet entered among the attributes of the tag. *)
Definition settled (m : in_tag) : bool :=
  match m with
  | AfterAttrValueQ | BeforeAttrName | SelfClosingStartTag => true
  | _ => false
  end.

(** A start tag [iframe] whose attributes begin with [pre]: among those
    already entered, or once the attribute read last is entered. *)
Definition frame_in (pre : list attribute) (t : tag) : Prop :=
  tag_end t = false
  /\ tag_name t = "iframe"
  /\ exists more, tag_attrs t = pre ++ more.

Definition frame_with (pre : list attribute) (t : tag) : Prop :=
  tag_end t = false
  /\ tag_name t = "iframe"
  /\ exists more, tag_attrs (commit t) = pre ++ more.

Definition frame_at (pre : list attribute) (m : in_tag) (t : tag) : Prop :=
  if settled m then frame_with pre t else frame_in pre t.

(** A step inside the frame stays inside it, past the tag name, or
    emits it, or stops the reading. *)
Definition keeps_with (pre : list attribute) (r : list token * state)
  : Prop :=
  (exists m t, r = ([], InTag m t) /\ m <> TagName /\ frame_at pre m t)
  \/ (exists t rest st, r = (token_of t :: rest, st) /\ frame_with pre t)
  \/ r = halt.

(** The first start tag of a token list, when there is one, is an
    iframe whose attributes begin with [pre]. *)
Definition first_tag_with (pre : list attribute) (ts : list token)
  : Prop :=
  match start_tags ts with
  | [] => True
  | (n, attrs) :: _ => n = "iframe" /\ exists more, attrs = pre ++ more
  end.

(** The tokens of the template around the value [u] of [src]. *)
Definition template_tokens (u : string) : list token :=
  characters (nl +:+ "        ")
  ++ [StartTag "iframe"
        [("width", "700"); ("height", "400"); ("src", u);
         ("frameborder", "0"); ("allowfullscreen", "")]
        false]
  ++ characters (nl +:+ "        ")
  ++ [EndTag "iframe"]
  ++ characters (nl +:+ "    ")
  ++ [EOF].


End Frame.

(** ** The script, step by step *)

Section Script.
Import Py Streamlit App Observe.

Lemma append_cons (c : ascii) (a b : string) :
  String c a +:+ b = String c (a +:+ b).
Proof. reflexivity. Qed.

Lemma append_empty_r (s : string) : s +:+ "" = s.
Proof.
  induction s as [|c s IH]; [reflexivity|].
  rewrite append_cons, IH. reflexivity.
Qed.

Lemma append_assoc (a b c : string) : (a +:+ b) +:+ c = a +:+ (b +:+ c).
Proof.
  induction a as [|x a IH]; [reflexivity|].
  rewrite !append_cons, IH. reflexivity.
Qed.

Lemma truthy_nonempty (s : string) : s <> "" -> truthy s = true.
Proof. destruct s as [|c s']; [congruence | reflexivity]. Qed.

Lemma identifier_lookup (session : gmap string string) (s : string) :
  session !! "linkid" = Some s -> identifier session = s.
Proof. unfold identifier. intros ->. reflexivity. Qed.

(** The whole effect of one cycle, by the two branches of the [if]. *)
Lemma render_empty (session : gmap string string) :
  identifier session = "" ->
  render session =
    (mkNamespace "" None,
     mkPage (<["linkid" := ""]> session)
            [Subheader (camera +:+ " Enter YouTube Video ID:");
             TextInput "Video Link ID" "linkid"]).
Proof.
  unfold identifier, render, app, bind, subheader, text_input, write.
  cbn [session_state display]. intros ->. reflexivity.
Qed.

Lemma render_nonempty (session : gmap string string) :
  identifier session <> "" ->
  render session =
    (mkNamespace (identifier session)
       (Some ("https://www.youtube.com/embed/"
                +:+ identifier session +:+ "?rel=0")),
     mkPage (<["linkid" := identifier session]> session)
            [Subheader (camera +:+ " Enter YouTube Video ID:");
             TextInput "Video Link ID" "linkid";
             HtmlComponent
               (html_head
                  +:+ ("https://www.youtube.com/embed/"
                         +:+ identifier session +:+ "?rel=0")
                  +:+ html_tail)
               400]).
Proof.
  intros Hne. apply truthy_nonempty in Hne.
  unfold render, app, bind, subheader, text_input, components_html,
    write, ret.
  cbn [session_state display].
  fold (identifier session). rewrite Hne.
  cbn [session_state display fstring fpart_text].
  rewrite !append_empty_r.
  reflexivity.
Qed.

End Script.

(** ** Facts on strings *)

Section Strings.
Import Py Observe.

Lemma length_append (a b : string) :
  String.length (a +:+ b) = (String.length a + String.length b)%nat.
Proof.
  induction a as [|c a IH]; [reflexivity|].
  rewrite append_cons. cbn [String.length]. rewrite IH. reflexivity.
Qed.

Lemma append_inj_r (c : string) : forall a b : string,
  a +:+ c = b +:+ c -> a = b.
Proof.
  induction a as [|x a IH]; intros [|y b] H.
  - reflexivity.
  - apply (f_equal String.length) in H.
    rewrite !length_append in H. cbn [String.length] in H. lia.
  - apply (f_equal String.length) in H.
    rewrite !length_append in H. cbn [String.length] in H. lia.
  - rewrite !append_cons in H. inversion H; subst y.
    f_equal. apply IH. assumption.
Qed.

Lemma append_inj_l (c a b : string) : c +:+ a = c +:+ b -> a = b.
Proof.
  induction c as [|x c IH]; intros H; [exact H|].
  rewrite !append_cons in H. inversion H. apply IH. assumption.
Qed.

Lemma split_at_dquote (s : string) :
  no_dquote s = false ->
  exists a b, s = a +:+ dq +:+ b /\ no_dquote a = true.
Proof.
  unfold no_dquote. induction s as [|c s IH]; [discriminate|].
  cbn [all_chars]. destruct (Ascii.eqb_spec c "034") as [->|Hc].
  - intros _. exists "", s. split; reflexivity.
  - cbn [negb andb]. intros H. destruct (IH H) as (a & b & -> & Ha).
    exists (String c a), b. split; [reflexivity|].
    cbn [all_chars]. rewrite Ha.
    destruct (Ascii.eqb_spec c "034"); [contradiction | reflexivity].
Qed.

End Strings.

(** ** The tokenizer on the template *)

Section Reading.
Import Py App Observe Html Frame.

Lemma all_chars_app (p : ascii -> bool) (a b : string) :
  all_chars p (a +:+ b) = all_chars p a && all_chars p b.
Proof.
  induction a as [|c a IH]; [reflexivity|].
  rewrite append_cons. cbn [all_chars]. rewrite IH.
  rewrite andb_assoc. reflexivity.
Qed.

Lemma no_dquote_app (a b : string) :
  no_dquote (a +:+ b) = no_dquote a && no_dquote b.
Proof. apply all_chars_app. Qed.

Lemma plain_app (a b : string) : plain (a +:+ b) = plain a && plain b.
Proof. apply all_chars_app. Qed.

Lemma literal_app (a b : string) :
  literal (a +:+ b) = literal a && literal b.
Proof. apply all_chars_app. Qed.

Lemma no_cr_app (a b : string) : no_cr (a +:+ b) = no_cr a && no_cr b.
Proof. apply all_chars_app. Qed.

Lemma plain_split (s : string) : plain s = no_dquote s && literal s.
Proof.
  unfold plain, no_dquote, literal.
  induction s as [|c s IH]; [reflexivity|].
  cbn [all_chars]. rewrite IH.
  destruct (negb (c =? "034")%char), (literal_char c),
    (all_chars (fun c0 => negb (c0 =? "034")%char) s); reflexivity.
Qed.

Lemma plain_no_cr (s : string) : plain s = true -> no_cr s = true.
Proof.
  unfold plain, no_cr, literal_char.
  induction s as [|c s IH]; [reflexivity|].
  cbn [all_chars]. intros H.
  apply andb_prop in H as [Hc Hs]. rewrite (IH Hs), andb_true_r.
  apply andb_prop in Hc as [_ Hc].
  destruct (c =? "013")%char; [|reflexivity].
  rewrite orb_true_r in Hc. discriminate.
Qed.

(** *** Newlines *)

Lemma normalize_cons (c : ascii) (s : string) :
  (c =? "013")%char = false ->
  normalize_newlines (String c s) = String c (normalize_newlines s).
Proof. intros H. cbn [normalize_newlines]. rewrite H. reflexivity. Qed.

Lemma normalize_no_cr (a : string) :
  no_cr a = true ->
  forall b, normalize_newlines (a +:+ b) = a +:+ normalize_newlines b.
Proof.
  unfold no_cr. induction a as [|c a IH]; intros H b; [reflexivity|].
  cbn [all_chars] in H. apply andb_prop in H as [Hc Ha].
  apply negb_true_iff in Hc.
  rewrite !append_cons, (normalize_cons _ _ Hc), (IH Ha). reflexivity.
Qed.

Lemma normalize_id (s : string) :
  no_cr s = true -> normalize_newlines s = s.
Proof.
  intros H. rewrite <- (append_empty_r s) at 1.
  rewrite (normalize_no_cr s H). apply append_empty_r.
Qed.

(** *** Reading in two parts *)

Lemma run_feed (a b : string) : forall st,
  run st (a +:+ b) = fst (feed st a) ++ run (snd (feed st a)) b.
Proof.
  induction a as [|c a IH]; intros st; [reflexivity|].
  rewrite append_cons. cbn [run feed].
  destruct (step st c) as [out st'].
  rewrite IH. destruct (feed st' a) as [out' st''].
  cbn [fst snd]. rewrite <- app_assoc. reflexivity.
Qed.

Lemma run_halted (r : string) : run Halted r = [].
Proof. induction r as [|c r IH]; [reflexivity|]. cbn [run step]. exact IH. Qed.

(** Inside a double-quoted value, plain text is added to the value and
    nothing else happens. *)
Lemma feed_attr_value_dq (u : string) :
  plain u = true ->
  forall e tn attrs n v sc,
    feed (InTag AttrValueDQ (mkTag e tn attrs (Some (n, v)) sc)) u =
      ([], InTag AttrValueDQ (mkTag e tn attrs (Some (n, v +:+ u)) sc)).
Proof.
  unfold plain, literal_char.
  induction u as [|c u IH]; intros Hq e tn attrs n v sc.
  - rewrite append_empty_r. reflexivity.
  - cbn [all_chars] in Hq. apply andb_prop in Hq as [Hc Hu].
    apply andb_prop in Hc as [Hdq Hlit].
    apply negb_true_iff in Hdq. apply negb_true_iff in Hlit.
    apply orb_false_iff in Hlit as [Hlit Hnul].
    apply orb_false_iff in Hlit as [Hamp _].
    cbn [feed step in_tag_step]. unfold attr_value_dq_step.
    rewrite Hdq, Hamp. unfold push_attr_value, value_text.
    cbn [tag_cur tag_end tag_name tag_attrs tag_self_closing].
    rewrite Hnul, (IH Hu), append_assoc. reflexivity.
Qed.

(** The state in which the head of the template leaves the reading:
    inside the quotes of [src], nothing of the value read yet. *)
Lemma feed_html_head :
  feed Data html_head =
    (characters (nl +:+ "        "),
     InTag AttrValueDQ
       (mkTag false "iframe" [("width", "700"); ("height", "400")]
              (Some ("src", "")) false)).
Proof. vm_compute. reflexivity. Qed.

Lemma tokenize_head (rest : string) :
  tokenize (html_head +:+ rest) =
    characters (nl +:+ "        ")
    ++ run (InTag AttrValueDQ
              (mkTag false "iframe" [("width", "700"); ("height", "400")]
                     (Some ("src", "")) false))
           (normalize_newlines rest).
Proof.
  unfold tokenize.
  rewrite (normalize_no_cr html_head) by reflexivity.
  rewrite run_feed, feed_html_head. reflexivity.
Qed.

(** Around a plain value the template reads as white space and one
    iframe, opened and closed. *)
Lemma tokenize_template_full (u : string) :
  plain u = true ->
  tokenize (html_head +:+ u +:+ html_tail) = template_tokens u.
Proof.
  intros Hq. rewrite tokenize_head.
  rewrite (normalize_no_cr u (plain_no_cr u Hq)).
  rewrite (normalize_id html_tail) by reflexivity.
  rewrite run_feed, (feed_attr_value_dq u Hq). cbn [fst snd].
  change ("" +:+ u) with u.
  vm_compute. reflexivity.
Qed.

Lemma tokenize_template (u : string) :
  plain u = true ->
  start_tags (tokenize (html_head +:+ u +:+ html_tail)) =
    [("iframe",
      [("width", "700"); ("height", "400"); ("src", u);
       ("frameborder", "0"); ("allowfullscreen", "")])].
Proof. intros Hq. rewrite (tokenize_template_full u Hq). reflexivity. Qed.

Lemma read_whole_template (u : string) :
  plain u = true -> read_whole (html_head +:+ u +:+ html_tail).
Proof.
  intros Hq. unfold read_whole. rewrite (tokenize_template_full u Hq).
  intros H. vm_compute in H.
  repeat (destruct H as [H|H]; [discriminate|]). exact H.
Qed.

(** The reading at work: a plain tag, the fragment of a well-formed
    identifier, an identifier that closes the frame and opens a second
    one, and a reading that stops at a character reference. *)
Example tokenize_link :
  tokenize ("<A href=x>t</a>") =
    [StartTag "a" [("href", "x")] false; Character "t"; EndTag "a"; EOF].
Proof. reflexivity. Qed.

Example iframes_plain_identifier :
  iframes (html_head +:+ "https://www.youtube.com/embed/abc?rel=0"
             +:+ html_tail) =
    [[("width", "700"); ("height", "400");
      ("src", "https://www.youtube.com/embed/abc?rel=0");
      ("frameborder", "0"); ("allowfullscreen", "")]].
Proof. vm_compute. reflexivity. Qed.

Example iframes_injected_identifier :
  iframes (html_head
             +:+ ("https://www.youtube.com/embed/"
                    +:+ (dq +:+ "></iframe><iframe src=" +:+ dq +:+ "x")
                    +:+ "?rel=0")
             +:+ html_tail) =
    [[("width", "700"); ("height", "400");
      ("src", "https://www.youtube.com/embed/")];
     [("src", "x?rel=0"); ("frameborder", "0"); ("allowfullscreen", "")]].
Proof. vm_compute. reflexivity. Qed.

Example tokenize_reference :
  tokenize ("<a href=" +:+ dq +:+ "x&amp;y" +:+ dq +:+ ">") = [Unmodelled].
Proof. reflexivity. Qed.

Example tokenize_carriage_return :
  tokenize ("<a" +:+ String "013" nl +:+ "b=c" +:+ String "013" ">") =
    [StartTag "a" [("b", "c")] false; EOF].
Proof. reflexivity. Qed.

End Reading.

(** ** The frame survives whatever follows its attributes *)

Section FrameReading.
Import Py App Observe Html Frame.

Variable pre : list attribute.

Lemma commit_end (t : tag) : tag_end (commit t) = tag_end t.
Proof. unfold commit. destruct (tag_cur t) as [[n v]|]; reflexivity. Qed.

Lemma commit_name (t : tag) : tag_name (commit t) = tag_name t.
Proof. unfold commit. destruct (tag_cur t) as [[n v]|]; reflexivity. Qed.

Lemma commit_attrs (t : tag) :
  exists extra, tag_attrs (commit t) = tag_attrs t ++ extra.
Proof.
  unfold commit. destruct (tag_cur t) as [[n v]|].
  - cbn [tag_attrs]. destruct (has_attr n (tag_attrs t)).
    + exists []. rewrite app_nil_r. reflexivity.
    + eexists. reflexivity.
  - exists []. rewrite app_nil_r. reflexivity.
Qed.

Lemma frame_in_with (t : tag) : frame_in pre t -> frame_with pre t.
Proof.
  intros (He & Hn & more & Ha). repeat split; try assumption.
  destruct (commit_attrs t) as (extra & Hc).
  exists (more ++ extra). rewrite Hc, Ha, app_assoc. reflexivity.
Qed.

Lemma start_attr_frame (n : string) (t : tag) :
  frame_with pre t -> frame_in pre (start_attr n t).
Proof.
  intros (He & Hn & Ha). unfold start_attr, frame_in.
  cbn [tag_end tag_name tag_attrs].
  rewrite commit_end, commit_name. auto.
Qed.

Lemma push_attr_name_frame (c : ascii) (t : tag) :
  frame_in pre t -> frame_in pre (push_attr_name c t).
Proof. intros (He & Hn & Ha). repeat split; assumption. Qed.

Lemma push_attr_value_frame (c : ascii) (t : tag) :
  frame_in pre t -> frame_in pre (push_attr_value c t).
Proof. intros (He & Hn & Ha). repeat split; assumption. Qed.

Lemma set_self_closing_frame (t : tag) :
  frame_with pre t -> frame_with pre (set_self_closing t).
Proof.
  intros (He & Hn & more & Ha). repeat split; try assumption.
  exists more. rewrite <- Ha. unfold commit, set_self_closing.
  cbn [tag_cur tag_attrs]. destruct (tag_cur t) as [[n v]|]; reflexivity.
Qed.

Lemma emit_keeps_with (t : tag) :
  frame_with pre t -> keeps_with pre (emit t).
Proof.
  intros H. right. left. unfold emit.
  destruct (tag_end t); [eauto|].
  destruct (mem (tag_name t) raw_text_elements); [eauto|].
  destruct (mem (tag_name t) unmodelled_elements); eauto.
Qed.

Lemma stay_keeps_with (m : in_tag) (t : tag) :
  m <> TagName -> frame_at pre m t -> keeps_with pre ([], InTag m t).
Proof. intros Hm H. left. eauto. Qed.

Lemma halt_keeps_with : keeps_with pre halt.
Proof. right. right. reflexivity. Qed.

Create HintDb frame_with.

Hint Resolve frame_in_with start_attr_frame push_attr_name_frame
  push_attr_value_frame set_self_closing_frame emit_keeps_with
  halt_keeps_with : frame_with.

(** The character read is one of those the tag states single out, or
    none of them; white space is told apart afterwards. *)
Ltac split_char c :=
  destruct (Ascii.eqb_spec c "/") as [->|?];
  [|destruct (Ascii.eqb_spec c ">") as [->|?];
    [|destruct (Ascii.eqb_spec c "=") as [->|?];
      [|destruct (Ascii.eqb_spec c "034") as [->|?];
        [|destruct (Ascii.eqb_spec c "'") as [->|?];
          [|destruct (Ascii.eqb_spec c "&") as [->|?]]]]]].

Ltac eval_tests :=
  repeat match goal with
    | |- context [is_ws ?x] =>
        first [ is_var x; destruct (is_ws x)
              | let v := eval vm_compute in (is_ws x) in
                change (is_ws x) with v ]
    | |- context [Ascii.eqb ?x ?y] =>
        let v := eval vm_compute in (Ascii.eqb x y) in
        change (Ascii.eqb x y) with v
    end;
  cbn [orb andb].

Ltac frame_with_cases c :=
  split_char c; eval_tests;
  try (apply stay_keeps_with; [discriminate | cbn [frame_at settled]]);
  auto 6 with frame_with.

Lemma in_tag_step_keeps_with (m : in_tag) (t : tag) (c : ascii) :
  m <> TagName -> frame_at pre m t -> keeps_with pre (in_tag_step m t c).
Proof.
  intros Hm H.
  destruct m; try congruence; cbn [frame_at settled] in H;
    cbn [in_tag_step];
    unfold before_attr_name_step, attr_name_step, after_attr_name_step,
      before_attr_value_step, attr_value_dq_step, attr_value_sq_step,
      attr_value_unq_step, after_attr_value_q_step, self_closing_step,
      before_attr_name_step, attr_name_step, after_attr_name_step;
    frame_with_cases c.
Qed.

Lemma token_of_frame (t : tag) :
  frame_with pre t ->
  exists more sc, token_of t = StartTag "iframe" (pre ++ more) sc.
Proof.
  intros (He & Hn & more & Ha). unfold token_of.
  rewrite commit_end, commit_name, He, Hn, Ha. eauto.
Qed.

Lemma run_keeps_with (r : string) : forall m t,
  m <> TagName -> frame_at pre m t ->
  first_tag_with pre (run (InTag m t) r).
Proof.
  induction r as [|c r IH]; intros m t Hm Ht; [exact I|].
  cbn [run step].
  destruct (in_tag_step_keeps_with m t c Hm Ht)
    as [(m' & t' & -> & Hm' & Ht')
       | [(t' & rest & st & -> & Ht') | ->]].
  - apply IH; assumption.
  - destruct (token_of_frame t' Ht') as (more & sc & ->).
    unfold first_tag_with. rewrite <- app_comm_cons.
    cbn [start_tags]. eauto.
  - unfold halt. rewrite run_halted. exact I.
Qed.

End FrameReading.

Section TemplateReading.
Import Py App Observe Html Frame.

(** Whatever text follows the head of the template, the first start
    tag read from it, if any, is the sized iframe. *)
Lemma tokenize_head_sized (rest : string) :
  first_tag_sized (tokenize (html_head +:+ rest)).
Proof.
  rewrite tokenize_head.
  assert (Hrun : first_tag_with [("width", "700"); ("height", "400")]
            (run (InTag AttrValueDQ
                    (mkTag false "iframe"
                       [("width", "700"); ("height", "400")]
                       (Some ("src", "")) false))
                 (normalize_newlines rest))).
  { apply run_keeps_with; [discriminate|].
    repeat split. exists []. reflexivity. }
  unfold first_tag_with in Hrun. unfold first_tag_sized.
  change (start_tags (characters (nl +:+ "        ") ++ ?x))
    with (start_tags x).
  destruct (start_tags _) as [|[n attrs] more]; [exact I|].
  destruct Hrun as (-> & more' & ->). repeat split.
Qed.

(** A double quote after the plain text [a] ends the value of [src] at
    [a], whatever text follows it. *)
Lemma tokenize_cut (a rest : string) :
  plain a = true ->
  first_tag_with [("width", "700"); ("height", "400"); ("src", a)]
    (tokenize (html_head +:+ a +:+ dq +:+ rest)).
Proof.
  intros Hq. rewrite tokenize_head.
  rewrite (normalize_no_cr a (plain_no_cr a Hq)).
  rewrite (normalize_no_cr dq) by reflexivity.
  rewrite run_feed, (feed_attr_value_dq a Hq). cbn [fst snd].
  change ("" +:+ a) with a.
  assert (Hrun : first_tag_with
            [("width", "700"); ("height", "400"); ("src", a)]
            (run (InTag AfterAttrValueQ
                    (mkTag false "iframe"
                       [("width", "700"); ("height", "400")]
                       (Some ("src", a)) false))
                 (normalize_newlines rest))).
  { apply run_keeps_with; [discriminate|].
    repeat split. exists []. reflexivity. }
  exact Hrun.
Qed.

Lemma first_tag_with_src (v : string) (ts : list token) :
  first_tag_with [("width", "700"); ("height", "400"); ("src", v)] ts ->
  match start_tags ts with
  | [] => True
  | (n, attrs) :: _ => n = "iframe" /\ get_attr "src" attrs = Some v
  end.
Proof.
  unfold first_tag_with. destruct (start_tags ts) as [|[n attrs] rest];
    [auto|].
  intros (-> & more & ->). split; reflexivity.
Qed.


(** How the markup of a cycle splits when the identifier holds a
    double quote after [a]. *)
Lemma quoted_markup (a b : string) :
  html_head
    +:+ ("https://www.youtube.com/embed/" +:+ (a +:+ dq +:+ b) +:+ "?rel=0")
    +:+ html_tail
  = html_head
      +:+ ("https://www.youtube.com/embed/" +:+ a)
      +:+ dq +:+ (b +:+ "?rel=0" +:+ html_tail).
Proof.
  f_equal. rewrite !append_assoc. reflexivity.
Qed.

End TemplateReading.

(** ** One cycle seen from outside *)

Section Cycle.
Import Py Streamlit App Observe Html Frame.

Lemma shown_empty (session : gmap string string) :
  identifier session = "" ->
  shown session =
    [Subheader (camera +:+ " Enter YouTube Video ID:");
     TextInput "Video Link ID" "linkid"].
Proof. intros H. unfold shown. rewrite (render_empty _ H). reflexivity. Qed.

Lemma shown_nonempty (session : gmap string string) :
  identifier session <> "" ->
  shown session =
    [Subheader (camera +:+ " Enter YouTube Video ID:");
     TextInput "Video Link ID" "linkid";
     HtmlComponent
       (html_head
          +:+ ("https://www.youtube.com/embed/"
                 +:+ identifier session +:+ "?rel=0")
          +:+ html_tail)
       400].
Proof.
  intros H. unfold shown. rewrite (render_nonempty _ H). reflexivity.
Qed.

Lemma session_after_eq (session : gmap string string) :
  session_after session = <["linkid" := identifier session]> session.
Proof.
  unfold session_after.
  destruct (string_dec (identifier session) "") as [H|H].
  - rewrite (render_empty _ H), H. reflexivity.
  - rewrite (render_nonempty _ H). reflexivity.
Qed.

Lemma identifier_session_after (session : gmap string string) :
  identifier (session_after session) = identifier session.
Proof.
  rewrite session_after_eq. unfold identifier at 1.
  rewrite lookup_insert_eq. reflexivity.
Qed.

(** What is shown depends on the session through the identifier
    only. *)
Lemma shown_identifier (s1 s2 : gmap string string) :
  identifier s1 = identifier s2 -> shown s1 = shown s2.
Proof.
  intros E. destruct (string_dec (identifier s1) "") as [H|H].
  - rewrite (shown_empty s1 H). rewrite E in H.
    rewrite (shown_empty s2 H). reflexivity.
  - rewrite (shown_nonempty s1 H). rewrite E in H.
    rewrite (shown_nonempty s2 H), E. reflexivity.
Qed.

Lemma plain_url (s : string) :
  plain s = true ->
  plain ("https://www.youtube.com/embed/" +:+ s +:+ "?rel=0") = true.
Proof. intros H. rewrite !plain_app, H. reflexivity. Qed.

(** The whole outcome of a cycle on a non-empty identifier. *)
Lemma any_identifier_embedded_eq
    (session : gmap string string) (s : string) :
  session !! "linkid" = Some s ->
  s <> "" ->
  render session =
    (mkNamespace s
       (Some ("https://www.youtube.com/embed/" +:+ s +:+ "?rel=0")),
     mkPage (<["linkid" := s]> session)
       [Subheader (camera +:+ " Enter YouTube Video ID:");
        TextInput "Video Link ID" "linkid";
        HtmlComponent
          (html_head
             +:+ ("https://www.youtube.com/embed/" +:+ s +:+ "?rel=0")
             +:+ html_tail)
          400]).
Proof.
  intros Hs Hne. apply identifier_lookup in Hs.
  rewrite render_nonempty by (rewrite Hs; exact Hne).
  rewrite Hs. reflexivity.
Qed.

(** The one iframe read from the template around a plain URL. *)
Lemma iframes_template (u : string) :
  plain u = true ->
  iframes (html_head +:+ u +:+ html_tail) =
    [[("width", "700"); ("height", "400"); ("src", u);
      ("frameborder", "0"); ("allowfullscreen", "")]].
Proof.
  intros H. unfold iframes. rewrite (tokenize_template u H). reflexivity.
Qed.

Lemma one_player_iframe_template (u : string) :
  plain u = true -> one_player_iframe (html_head +:+ u +:+ html_tail) u.
Proof.
  intros H. eexists. split; [apply (iframes_template u H)|].
  repeat split. apply (read_whole_template u H).
Qed.

(** The two readings at the level of a cycle. *)
Lemma plain_identifier_frame
    (session : gmap string string) (s : string) :
  session !! "linkid" = Some s ->
  s <> "" ->
  plain s = true ->
  exists html,
    fragments (shown session) = [(html, 400)]
    /\ one_player_iframe html
         ("https://www.youtube.com/embed/" +:+ s +:+ "?rel=0").
Proof.
  intros Hs Hne Hq. unfold shown.
  rewrite (any_identifier_embedded_eq session s Hs Hne).
  cbn [snd display fragments]. eexists. split; [reflexivity|].
  apply one_player_iframe_template, plain_url, Hq.
Qed.

Lemma src_cut_at_first_quote
    (session : gmap string string) (a b : string) :
  session !! "linkid" = Some (a +:+ dq +:+ b) ->
  plain a = true ->
  exists html,
    fragments (shown session) = [(html, 400)]
    /\ first_tag_with
         [("width", "700"); ("height", "400");
          ("src", "https://www.youtube.com/embed/" +:+ a)]
         (tokenize html).
Proof.
  intros Hs Hq.
  assert (Hne : a +:+ dq +:+ b <> "").
  { intros E. apply (f_equal String.length) in E.
    rewrite !length_append in E. cbn [String.length dq] in E. lia. }
  unfold shown. rewrite (any_identifier_embedded_eq session _ Hs Hne).
  cbn [snd display fragments]. eexists. split; [reflexivity|].
  rewrite quoted_markup. apply tokenize_cut.
  rewrite plain_app, Hq. reflexivity.
Qed.

(** *** White space for Python is plain text, carriage return apart *)

Lemma space1_plain (a : ascii) :
  space1 a = true ->
  (a =? "013")%char = false ->
  negb (a =? "034")%char && literal_char a = true.
Proof.
  destruct a as [[] [] [] [] [] [] [] []]; vm_compute;
    intros H1 H2; try discriminate; reflexivity.
Qed.

Lemma high_plain (a : ascii) :
  (128 <=? nat_of_ascii a)%nat = true ->
  negb (a =? "034")%char && literal_char a = true.
Proof.
  destruct a as [[] [] [] [] [] [] [] []]; vm_compute;
    intros H1; try discriminate; reflexivity.
Qed.

Lemma space2_high (a b : ascii) :
  space2 a b = true ->
  (128 <=? nat_of_ascii a)%nat = true /\ (128 <=? nat_of_ascii b)%nat = true.
Proof.
  unfold space2. intros H. apply andb_prop in H as [Ha Hb].
  apply Ascii.eqb_eq in Ha. subst a.
  apply orb_prop in Hb as [Hb|Hb]; apply Ascii.eqb_eq in Hb; subst b;
    split; reflexivity.
Qed.

Lemma space3_high (a b c : ascii) :
  space3 a b c = true ->
  (128 <=? nat_of_ascii a)%nat = true
  /\ (128 <=? nat_of_ascii b)%nat = true
  /\ (128 <=? nat_of_ascii c)%nat = true.
Proof.
  unfold space3. intros H.
  repeat match type of H with
    | (_ || _) = true => apply orb_prop in H as [H|H]
    end;
    repeat match goal with
      | H : (_ && _) = true |- _ => apply andb_prop in H as [? ?]
      | H : (_ || _) = true |- _ => apply orb_prop in H as [H|H]
      | H : (?x =? _)%char = true |- _ => apply Ascii.eqb_eq in H; subst x
      end;
    repeat split; try reflexivity; assumption.
Qed.

Lemma all_space_plain (n : nat) : forall s,
  (String.length s <= n)%nat ->
  all_space s = true -> no_cr s = true -> plain s = true.
Proof.
  unfold no_cr, plain.
  induction n as [|n IH]; intros [|a s1] Hlen Hsp Hcr;
    try reflexivity; cbn [String.length] in Hlen; [lia|].
  cbn [all_space] in Hsp. cbn [all_chars] in Hcr |- *.
  apply andb_prop in Hcr as [Ha Hcr1]. apply negb_true_iff in Ha.
  destruct (space1 a) eqn:H1.
  { rewrite (space1_plain a H1 Ha). apply IH; [lia | assumption..]. }
  destruct s1 as [|b s2]; [discriminate|].
  cbn [String.length] in Hlen. cbn [all_chars] in Hcr1 |- *.
  apply andb_prop in Hcr1 as [Hb Hcr2].
  destruct (space2 a b) eqn:H2.
  { destruct (space2_high a b H2) as [Hha Hhb].
    rewrite (high_plain a Hha), (high_plain b Hhb).
    apply IH; [lia | assumption..]. }
  destruct s2 as [|c s3]; [discriminate|].
  cbn [String.length] in Hlen. cbn [all_chars] in Hcr2 |- *.
  apply andb_prop in Hcr2 as [Hc Hcr3].
  apply andb_prop in Hsp as [H3 Hsp3].
  destruct (space3_high a b c H3) as (Hha & Hhb & Hhc).
  rewrite (high_plain a Hha), (high_plain b Hhb), (high_plain c Hhc).
  apply IH; [lia | assumption..].
Qed.

End Cycle.

(** ** The properties of the renderer *)

Import Py Streamlit App Observe Html Frame.

(** C1: for every non-empty identifier [s] the embed URL the script
    builds is the prefix ["https://www.youtube.com/embed/"], then [s],
    then the suffix ["?rel=0"]. *)
Theorem embed_url_template (session : gmap string string) (s : string) :
  session !! "linkid" = Some s ->
  s <> "" ->
  embed_url (fst (render session)) =
    Some ("https://www.youtube.com/embed/" +:+ s +:+ "?rel=0").
Proof.
  intros Hs Hne. apply identifier_lookup in Hs.
  rewrite render_nonempty by (rewrite Hs; exact Hne).
  rewrite Hs. reflexivity.
Qed.

Lemma embed_url_template_witness :
  ({["linkid" := "abc"]} : gmap string string) !! "linkid" = Some "abc"
  /\ "abc" <> ""
  /\ embed_url (fst (render {["linkid" := "abc"]})) =
       Some "https://www.youtube.com/embed/abc?rel=0".
Proof.
  split; [reflexivity|]. split; [discriminate|].
  apply (embed_url_template {["linkid" := "abc"]} "abc");
    [reflexivity | discriminate].
Defined.

(** C2: when the identifier is empty the cycle emits no embed fragment:
    the page shows the prompt and the input control and nothing else,
    and no embed URL is built. *)
Theorem empty_identifier_no_fragment (session : gmap string string) :
  identifier session = "" ->
  fragments (shown session) = []
  /\ shown session =
       [Subheader (camera +:+ " Enter YouTube Video ID:");
        TextInput "Video Link ID" "linkid"]
  /\ embed_url (fst (render session)) = None.
Proof.
  intros H. rewrite (shown_empty _ H), (render_empty _ H).
  repeat split.
Qed.

Lemma empty_identifier_no_fragment_witness :
  identifier {["linkid" := ""]} = ""
  /\ fragments (shown {["linkid" := ""]}) = [].
Proof.
  split; [reflexivity|].
  apply (empty_identifier_no_fragment {["linkid" := ""]}). reflexivity.
Defined.

(** C3: every fragment a cycle emits sits in a container of height 400
    and opens with an iframe tag of width 700 and height 400, whatever
    the identifier: the two attributes stand in the markup before the
    place of the identifier, and the first start tag read from the
    markup, when one is read, is an iframe with these two values. *)
Theorem fragment_size_fixed
    (session : gmap string string) (html : string) (h : Z) :
  In (html, h) (fragments (shown session)) ->
  h = 400
  /\ (exists rest,
        html = (nl +:+ "        <iframe width=" +:+ dq +:+ "700" +:+ dq
                   +:+ " height=" +:+ dq +:+ "400" +:+ dq) +:+ rest)
  /\ first_tag_sized (tokenize html).
Proof.
  intros Hin. destruct (string_dec (identifier session) "") as [H|H].
  - rewrite (shown_empty _ H) in Hin. destruct Hin.
  - rewrite (shown_nonempty _ H) in Hin. cbn [fragments In] in Hin.
    destruct Hin as [Heq|[]]. inversion Heq; subst html h; clear Heq.
    split; [reflexivity|]. split.
    + eexists. unfold html_head. rewrite !append_assoc. reflexivity.
    + apply tokenize_head_sized.
Qed.

Lemma fragment_size_fixed_witness :
  In (html_head +:+ "https://www.youtube.com/embed/abc?rel=0"
        +:+ html_tail, 400)
     (fragments (shown {["linkid" := "abc"]}))
  /\ first_tag_sized
       (tokenize (html_head +:+ "https://www.youtube.com/embed/abc?rel=0"
                    +:+ html_tail)).
Proof.
  assert (Hin : In (html_head +:+ "https://www.youtube.com/embed/abc?rel=0"
                      +:+ html_tail, 400)
                   (fragments (shown {["linkid" := "abc"]})))
    by (left; reflexivity).
  split; [exact Hin|].
  exact (proj2 (proj2 (fragment_size_fixed _ _ _ Hin))).
Defined.

(** C4: rendering is deterministic in the identifier and idempotent:
    two cycles whose sessions hold the same identifier show the same
    elements, and a second cycle run on the session the first one left
    shows the same elements again and leaves that session as it is. *)
Theorem render_idempotent (s1 s2 : gmap string string) :
  identifier s1 = identifier s2 ->
  shown s1 = shown s2
  /\ shown (session_after s1) = shown s1
  /\ session_after (session_after s1) = session_after s1.
Proof.
  intros E. split; [exact (shown_identifier _ _ E)|]. split.
  - apply shown_identifier, identifier_session_after.
  - rewrite (session_after_eq (session_after s1)),
      identifier_session_after.
    rewrite session_after_eq. apply insert_insert_eq.
Qed.

Lemma render_idempotent_witness :
  identifier {["linkid" := "abc"]}
    = identifier {["linkid" := "abc"; "other" := "x"]}
  /\ shown {["linkid" := "abc"]}
       = shown {["linkid" := "abc"; "other" := "x"]}.
Proof.
  assert (E : identifier {["linkid" := "abc"]}
              = identifier {["linkid" := "abc"; "other" := "x"]})
    by reflexivity.
  split; [exact E|].
  exact (proj1 (render_idempotent _ _ E)).
Defined.




(** C6: for the identifier ["dQw4w9WgXcQ"] the [src] attribute of the
    iframe of the emitted fragment is
    ["https://www.youtube.com/embed/dQw4w9WgXcQ?rel=0"]. *)
Theorem example_identifier_src (session : gmap string string) :
  session !! "linkid" = Some "dQw4w9WgXcQ" ->
  exists html attrs,
    fragments (shown session) = [(html, 400)]
    /\ iframes html = [attrs]
    /\ get_attr "src" attrs
         = Some "https://www.youtube.com/embed/dQw4w9WgXcQ?rel=0".
Proof.
  intros Hs. apply identifier_lookup in Hs.
  rewrite shown_nonempty by (rewrite Hs; discriminate).
  rewrite Hs. eexists _, _. split; [reflexivity|].
  split; [apply iframes_template; reflexivity|]. reflexivity.
Qed.

Lemma example_identifier_src_witness :
  ({["linkid" := "dQw4w9WgXcQ"]} : gmap string string) !! "linkid"
    = Some "dQw4w9WgXcQ"
  /\ exists html attrs,
       fragments (shown {["linkid" := "dQw4w9WgXcQ"]}) = [(html, 400)]
       /\ iframes html = [attrs]
       /\ get_attr "src" attrs
            = Some "https://www.youtube.com/embed/dQw4w9WgXcQ?rel=0".
Proof.
  split; [reflexivity|].
  apply (example_identifier_src {["linkid" := "dQw4w9WgXcQ"]}).
  reflexivity.
Defined.

(** C7: the script checks nothing about the identifier beyond its
    being non-empty and has no error outcome: for every non-empty
    string the cycle runs to its end, binds the embed URL, and shows the
    prompt, the input control and the fragment built from the string as
    it is, and nothing else. *)
Theorem any_identifier_embedded
    (session : gmap string string) (s : string) :
  session !! "linkid" = Some s ->
  s <> "" ->
  render session =
    (mkNamespace s
       (Some ("https://www.youtube.com/embed/" +:+ s +:+ "?rel=0")),
     mkPage (<["linkid" := s]> session)
       [Subheader (camera +:+ " Enter YouTube Video ID:");
        TextInput "Video Link ID" "linkid";
        HtmlComponent
          (html_head
             +:+ ("https://www.youtube.com/embed/" +:+ s +:+ "?rel=0")
             +:+ html_tail)
          400]).
Proof. exact (any_identifier_embedded_eq session s). Qed.

Lemma any_identifier_embedded_witness :
  ({["linkid" := "not a video <id>"]} : gmap string string) !! "linkid"
    = Some "not a video <id>"
  /\ "not a video <id>" <> ""
  /\ fragments (display (snd (render {["linkid" := "not a video <id>"]})))
     = [(html_head
           +:+ "https://www.youtube.com/embed/not a video <id>?rel=0"
           +:+ html_tail, 400)].
Proof.
  split; [reflexivity|]. split; [discriminate|].
  rewrite (any_identifier_embedded
             {["linkid" := "not a video <id>"]} "not a video <id>");
    [reflexivity | reflexivity | discriminate].
Defined.


(** C9: the identifier goes as it is, with no escaping, into the embed
    URL and between the quotes of [src] in the fragment; and for the
    identifier ["a"], double quote, ["b"] the quote ends the value read
    for [src], which is then not the embed URL. *)
Theorem identifier_verbatim_in_src :
  exists before after : string,
    (forall (session : gmap string string) (s : string),
        session !! "linkid" = Some s ->
        s <> "" ->
        embed_url (fst (render session)) =
          Some ("https://www.youtube.com/embed/" +:+ s +:+ "?rel=0")
        /\ fragments (shown session) =
             [(before +:+ "src=" +:+ dq
                 +:+ "https://www.youtube.com/embed/" +:+ s +:+ "?rel=0"
                 +:+ dq +:+ after, 400)])
    /\ exists s : string,
         s <> ""
         /\ no_dquote s = false
         /\ forall session : gmap string string,
              session !! "linkid" = Some s ->
              exists html attrs,
                fragments (shown session) = [(html, 400)]
                /\ iframes html = [attrs]
                /\ get_attr "src" attrs
                     = Some "https://www.youtube.com/embed/a"
                /\ get_attr "src" attrs <> embed_url (fst (render session)).
Proof.
  exists (nl +:+ "        <iframe width=" +:+ dq +:+ "700" +:+ dq
             +:+ " height=" +:+ dq +:+ "400" +:+ dq +:+ nl +:+ "        ").
  exists (nl +:+ "        frameborder=" +:+ dq +:+ "0" +:+ dq +:+ nl
             +:+ "        allowfullscreen>" +:+ nl
             +:+ "        </iframe>" +:+ nl +:+ "    ").
  split.
  - intros session s Hs Hne.
    rewrite (any_identifier_embedded_eq session s Hs Hne).
    split; [reflexivity|]. unfold shown.
    rewrite (any_identifier_embedded_eq session s Hs Hne).
    cbn [snd display fragments]. unfold html_head, html_tail.
    rewrite !append_assoc. reflexivity.
  - exists ("a" +:+ dq +:+ "b").
    split; [discriminate|]. split; [reflexivity|].
    intros session Hs.
    assert (Hne : "a" +:+ dq +:+ "b" <> "") by discriminate.
    unfold shown.
    rewrite (any_identifier_embedded_eq session _ Hs Hne).
    cbn [snd fst display fragments embed_url].
    eexists _, _. split; [reflexivity|].
    split; [vm_compute; reflexivity|].
    split; [reflexivity | discriminate].
Qed.

(** C10: the script does not trim: for every non-empty identifier
    made of white space only (any character that is white space for
    Python), the identifier is kept as it is, the fragment is emitted,
    and the embed URL and the markup hold the white space as it is.
    When the white space has no carriage return, which an HTML reader
    turns into a line feed, the [src] read back from the one iframe of
    the markup is that URL. *)
Theorem whitespace_identifier_embedded
    (session : gmap string string) (s : string) :
  session !! "linkid" = Some s ->
  isspace s = true ->
  video_id (fst (render session)) = s
  /\ embed_url (fst (render session)) =
       Some ("https://www.youtube.com/embed/" +:+ s +:+ "?rel=0")
  /\ fragments (shown session) =
       [(html_head
           +:+ ("https://www.youtube.com/embed/" +:+ s +:+ "?rel=0")
           +:+ html_tail, 400)]
  /\ (no_cr s = true ->
      one_player_iframe
        (html_head
           +:+ ("https://www.youtube.com/embed/" +:+ s +:+ "?rel=0")
           +:+ html_tail)
        ("https://www.youtube.com/embed/" +:+ s +:+ "?rel=0")).
Proof.
  intros Hs Hw. unfold isspace in Hw. apply andb_prop in Hw as [Hne Hsp].
  assert (Hne' : s <> "") by (intros ->; discriminate).
  unfold shown.
  rewrite (any_identifier_embedded_eq session s Hs Hne').
  cbn [fst snd video_id embed_url display fragments].
  repeat split.
  intros Hcr. apply one_player_iframe_template, plain_url.
  exact (all_space_plain (String.length s) s (Nat.le_refl _) Hsp Hcr).
Qed.

Lemma whitespace_identifier_embedded_witness :
  ({["linkid" := String " " (String "194" (String "160" (String "009"
                   (String "227" (String "128" (String "128" "")))))) ]}
     : gmap string string) !! "linkid"
    = Some (String " " (String "194" (String "160" (String "009"
              (String "227" (String "128" (String "128" "")))))))
  /\ isspace (String " " (String "194" (String "160" (String "009"
                (String "227" (String "128" (String "128" "")))))))
     = true
  /\ embed_url
       (fst (render
          {["linkid" := String " " (String "194" (String "160"
                          (String "009" (String "227" (String "128"
                          (String "128" "")))))) ]})) =
       Some ("https://www.youtube.com/embed/"
               +:+ String " " (String "194" (String "160" (String "009"
                     (String "227" (String "128" (String "128" ""))))))
               +:+ "?rel=0").
Proof.
  split; [reflexivity|]. split; [reflexivity|].
  apply (whitespace_identifier_embedded
           {["linkid" := String " " (String "194" (String "160"
                           (String "009" (String "227" (String "128"
                           (String "128" "")))))) ]}
           (String " " (String "194" (String "160" (String "009"
              (String "227" (String "128" (String "128" ""))))))));
    reflexivity.
Defined.

(** ** Further properties of the script *)

(** X1: what a cycle shows tells the identifier: two cycles that show
    the same elements ran on the same identifier. *)
Theorem shown_determines_identifier (s1 s2 : gmap string string) :
  shown s1 = shown s2 -> identifier s1 = identifier s2.
Proof.
  intros E.
  destruct (string_dec (identifier s1) "") as [H1|H1];
    destruct (string_dec (identifier s2) "") as [H2|H2].
  - congruence.
  - rewrite (shown_empty _ H1), (shown_nonempty _ H2) in E. discriminate.
  - rewrite (shown_nonempty _ H1), (shown_empty _ H2) in E. discriminate.
  - rewrite (shown_nonempty _ H1), (shown_nonempty _ H2) in E.
    apply (f_equal fragments) in E. cbn [fragments] in E.
    apply (f_equal (fun l => fst (hd ("", 0) l))) in E. cbn [hd fst] in E.
    apply (append_inj_l html_head), append_inj_r in E.
    apply (append_inj_l "https://www.youtube.com/embed/") in E.
    apply append_inj_r in E. exact E.
Qed.

Lemma shown_determines_identifier_witness :
  shown {["linkid" := "abc"]} = shown {["linkid" := "abc"; "other" := "x"]}
  /\ identifier {["linkid" := "abc"]}
     = identifier {["linkid" := "abc"; "other" := "x"]}.
Proof.
  assert (E : shown {["linkid" := "abc"]}
              = shown {["linkid" := "abc"; "other" := "x"]})
    by reflexivity.
  split; [exact E|].
  exact (shown_determines_identifier _ _ E).
Defined.

(** X2: for a non-empty identifier that holds no double quote, no
    ampersand, no carriage return and no NUL, the whole fragment reads
    as white space, one iframe start tag with the five attributes, its
    end tag, and the end of input: nothing of the identifier is read as
    markup, whatever other characters it holds. *)
Theorem plain_identifier_tokens
    (session : gmap string string) (s : string) :
  session !! "linkid" = Some s ->
  s <> "" ->
  plain s = true ->
  exists html,
    fragments (shown session) = [(html, 400)]
    /\ tokenize html =
         template_tokens
           ("https://www.youtube.com/embed/" +:+ s +:+ "?rel=0").
Proof.
  intros Hs Hne Hq. unfold shown.
  rewrite (any_identifier_embedded_eq session s Hs Hne).
  cbn [snd display fragments]. eexists. split; [reflexivity|].
  apply tokenize_template_full, plain_url, Hq.
Qed.

Lemma plain_identifier_tokens_witness :
  ({["linkid" := "<b>'=' x"]} : gmap string string) !! "linkid"
    = Some "<b>'=' x"
  /\ "<b>'=' x" <> ""
  /\ plain "<b>'=' x" = true
  /\ exists html,
       fragments (shown {["linkid" := "<b>'=' x"]}) = [(html, 400)]
       /\ tokenize html =
            template_tokens "https://www.youtube.com/embed/<b>'=' x?rel=0".
Proof.
  split; [reflexivity|]. split; [discriminate|]. split; [reflexivity|].
  apply (plain_identifier_tokens {["linkid" := "<b>'=' x"]} "<b>'=' x");
    [reflexivity | discriminate | reflexivity].
Defined.



(** X4: for a non-empty identifier that holds no ampersand, no
    carriage return and no NUL, the fragment reads as exactly one iframe
    with the five attributes and [src] equal to the embed URL if and
    only if the identifier holds no double quote. *)
Theorem one_iframe_iff_unquoted
    (session : gmap string string) (s : string) :
  session !! "linkid" = Some s ->
  s <> "" ->
  literal s = true ->
  (exists html,
      fragments (shown session) = [(html, 400)]
      /\ one_player_iframe html
           ("https://www.youtube.com/embed/" +:+ s +:+ "?rel=0"))
  <-> no_dquote s = true.
Proof.
  intros Hs Hne Hlit. split.
  - intros (html & Hf & attrs & Hi & _ & _ & _ & _ & Hsrc & _ & _).
    destruct (no_dquote s) eqn:Hq; [reflexivity|exfalso].
    destruct (split_at_dquote s Hq) as (a & b & -> & Ha).
    rewrite literal_app in Hlit. apply andb_prop in Hlit as [Hla _].
    assert (Hpa : plain a = true) by (rewrite plain_split, Ha, Hla; reflexivity).
    destruct (src_cut_at_first_quote session a b Hs Hpa)
      as (html' & Hf' & Hcut).
    rewrite Hf' in Hf. inversion Hf; subst html'; clear Hf.
    apply first_tag_with_src in Hcut. unfold iframes in Hi.
    destruct (start_tags (tokenize html)) as [|[n attrs'] rest];
      [discriminate|].
    destruct Hcut as (-> & Hsrc'). cbn [filter fst] in Hi.
    change (String.eqb "iframe" "iframe") with true in Hi.
    cbn [map snd] in Hi. inversion Hi; subst attrs'.
    rewrite Hsrc' in Hsrc. inversion Hsrc as [E].
    apply append_inj_l in E. apply (f_equal String.length) in E.
    rewrite !length_append in E. cbn [String.length dq] in E. lia.
  - intros Hq. apply (plain_identifier_frame session s Hs Hne).
    rewrite plain_split, Hq, Hlit. reflexivity.
Qed.

Lemma one_iframe_iff_unquoted_witness :
  ({["linkid" := "abc"]} : gmap string string) !! "linkid" = Some "abc"
  /\ "abc" <> ""
  /\ literal "abc" = true
  /\ ((exists html,
          fragments (shown {["linkid" := "abc"]}) = [(html, 400)]
          /\ one_player_iframe html
               "https://www.youtube.com/embed/abc?rel=0")
      <-> no_dquote "abc" = true).
Proof.
  split; [reflexivity|]. split; [discriminate|]. split; [reflexivity|].
  apply (one_iframe_iff_unquoted {["linkid" := "abc"]} "abc");
    [reflexivity | discriminate | reflexivity].
Defined.



(** X7: a cycle registers the identifier under the key [linkid] and
    leaves every other key of the session state as it was. *)
Theorem session_keys_kept (session : gmap string string) (k : string) :
  k <> "linkid" ->
  session_after session !! k = session !! k
  /\ session_after session !! "linkid" = Some (identifier session).
Proof.
  intros Hk. rewrite session_after_eq. split.
  - apply lookup_insert_ne. congruence.
  - apply lookup_insert_eq.
Qed.

Lemma session_keys_kept_witness :
  "other" <> "linkid"
  /\ session_after {["other" := "x"]} !! "other"
     = ({["other" := "x"]} : gmap string string) !! "other"
  /\ session_after {["other" := "x"]} !! "linkid"
     = Some (identifier {["other" := "x"]}).
Proof.
  split; [discriminate|].
  apply (session_keys_kept {["other" := "x"]} "other"). discriminate.
Defined.
